(** * The requires side of the OpenStack integration interface

    A shallow embedding of [requires.py]: the class
    [OpenStackIntegrationRequires], its property accessors over the data
    received on the relation, the readiness predicate [is_ready] and the two
    flag handlers [check_ready] and [remove_ready].

    Python values are kept as values (the [or] and [and] of Python return
    one of their operands, not a boolean), a missing relation is the
    [IndexError] of [self.relations[0]], and the flags are the process-wide
    set of flag names of the reactive framework. *)

From Stdlib Require Import ZArith String List.
From Stdlib Require Import Floats.SpecFloat.
From stdpp Require Import gmap strings list fin_maps.

Set Warnings "-register-all".
Open Scope string_scope.

(** ** Python values *)

(** What the relation data decodes to: the values of JSON. *)
Inductive pyval : Type :=
  | PyNone
  | PyBool (b : bool)
  | PyInt (z : Z)
  | PyFloat (f : spec_float)
  | PyStr (s : string)
  | PyList (l : list pyval)
  | PyDict (d : list (string * pyval)).

(** Truth value testing, the [bool(v)] of Python: [None], [False], zero of a
    numeric type and an empty string, list or dict are false. *)
Definition truthy (v : pyval) : bool :=
  match v with
  | PyNone => false
  | PyBool b => b
  | PyInt z => negb (Z.eqb z 0)
  | PyFloat (S754_zero _) => false
  | PyFloat _ => true
  | PyStr s => negb (String.eqb s "")
  | PyList l => match l with [] => false | _ => true end
  | PyDict d => match d with [] => false | _ => true end
  end.

(** [not v] *)
Definition py_not (v : pyval) : pyval := PyBool (negb (truthy v)).

(** [v is not None] *)
Definition is_not_None (v : pyval) : bool :=
  match v with PyNone => false | _ => true end.

(** [v == False]: [False] equals itself and the zeros of the numeric
    types, and nothing else. *)
Definition py_eq_False (v : pyval) : bool :=
  match v with
  | PyBool b => negb b
  | PyInt z => Z.eqb z 0
  | PyFloat (S754_zero _) => true
  | _ => false
  end.

(** ** The endpoint and the flags *)

(** One relation of the endpoint. [received] is what
    [relation.joined_units.received] gives, the decoded data of the joined
    units; [to_publish] is the data this side sends. *)
Record Relation : Type := mkRelation {
  received : gmap string pyval;
  to_publish : gmap string pyval
}.

(** The endpoint object together with the flags of the process. *)
Record World : Type := mkWorld {
  flags : gset string;
  endpoint_name : string;
  relations : list Relation
}.

Definition with_flags (fl : gset string) (w : World) : World :=
  mkWorld fl (endpoint_name w) (relations w).

Definition with_relations (rs : list Relation) (w : World) : World :=
  mkWorld (flags w) (endpoint_name w) rs.

(** ** Computations: state and exceptions *)

Inductive exn : Type := IndexError.

Inductive outcome (A : Type) : Type :=
  | Ret (a : A)
  | Raise (e : exn).
Arguments Ret {A} a.
Arguments Raise {A} e.

(** A method of the endpoint: it runs in a world, returns or raises, and
    leaves a world. *)
Definition M (A : Type) : Type := World -> outcome A * World.

Definition ret {A} (a : A) : M A := fun w => (Ret a, w).

Definition raise {A} (e : exn) : M A := fun w => (Raise e, w).

Definition bind {A B} (m : M A) (k : A -> M B) : M B :=
  fun w =>
    match m w with
    | (Ret a, w') => k a w'
    | (Raise e, w') => (Raise e, w')
    end.

Notation "x <~ m ;; k" := (bind m (fun x => k))
  (at level 62, m at next level, right associativity).
Notation "m ;;; k" := (bind m (fun _ => k))
  (at level 62, right associativity).

(** The elements of a list display, evaluated from left to right. *)
Fixpoint sequence {A} (ms : list (M A)) : M (list A) :=
  match ms with
  | [] => ret []
  | m :: ms' => x <~ m ;; xs <~ sequence ms' ;; ret (x :: xs)
  end.

(** [a or b]: [b] is evaluated only when [a] is false, and the result is
    the operand that decided. *)
Definition py_or (a b : M pyval) : M pyval :=
  x <~ a ;; if truthy x then ret x else b.

(** [a and b] *)
Definition py_and (a b : M pyval) : M pyval :=
  x <~ a ;; if truthy x then b else ret x.

(** ** The framework's side *)

(** [received[key]]: the view of the received data gives [None] for a key
    that was never sent, like a defaultdict. *)
Definition getitem (fs : gmap string pyval) (key : string) : pyval :=
  default PyNone (fs !! key).
Arguments getitem : simpl never.

(** [self.expand_name(flag)] for a flag given without the placeholder:
    the name is prefixed with the endpoint's. *)
Definition expand_name (flag : string) : M string :=
  fun w => (Ret ("endpoint." ++ endpoint_name w ++ "." ++ flag), w).

Definition set_flag (flag : string) : M unit :=
  fun w => (Ret tt, with_flags ({[flag]} ∪ flags w) w).

Definition clear_flag (flag : string) : M unit :=
  fun w => (Ret tt, with_flags (flags w ∖ {[flag]}) w).

(** [toggle_flag(flag, should_set)] sets or clears by the truth of the
    second argument. *)
Definition toggle_flag (flag : string) (should_set : pyval) : M unit :=
  if truthy should_set then set_flag flag else clear_flag flag.

Definition is_flag_set (flag : string) (w : World) : bool :=
  bool_decide (flag ∈ flags w).

(** ** OpenStackIntegrationRequires *)

(** [self.relations[0]]: indexing the empty list raises. *)
Definition first_relation : M Relation :=
  fun w =>
    match relations w with
    | [] => raise IndexError w
    | r :: _ => ret r w
    end.

(** [self.relations[0].joined_units.received] *)
Definition _received : M (gmap string pyval) :=
  rel <~ first_relation ;; ret (received rel).

(** [self.relations[0].to_publish] *)
Definition _to_publish : M (gmap string pyval) :=
  rel <~ first_relation ;; ret (to_publish rel).

(** [self._received[key]] *)
Definition received_item (key : string) : M pyval :=
  fs <~ _received ;; ret (getitem fs key).

Definition auth_url : M pyval := received_item "auth_url".
Definition region : M pyval := received_item "region".
Definition username : M pyval := received_item "username".
Definition password : M pyval := received_item "password".
Definition user_domain_name : M pyval := received_item "user_domain_name".
Definition project_domain_name : M pyval :=
  received_item "project_domain_name".
Definition project_name : M pyval := received_item "project_name".

Definition endpoint_tls_ca : M pyval :=
  py_or (received_item "endpoint_tls_ca") (ret PyNone).

Definition subnet_id : M pyval := received_item "subnet_id".
Definition floating_network_id : M pyval :=
  received_item "floating_network_id".
Definition lb_method : M pyval := received_item "lb_method".

Definition manage_security_groups : M pyval :=
  py_or (received_item "manage_security_groups") (ret (PyBool false)).

Definition node_security_group : M pyval :=
  received_item "node_security_group".

Definition is_ready : M pyval :=
  sec_grp <~ py_or node_security_group
                   (m <~ manage_security_groups ;; ret (py_not m)) ;;
  py_and (ret sec_grp)
         (fields <~ sequence [auth_url; username; password;
                              user_domain_name; project_domain_name;
                              project_name] ;;
          ret (PyBool (forallb is_not_None fields))).

(** Handler of [@when('endpoint.{endpoint_name}.changed')]. *)
Definition check_ready : M unit :=
  name <~ expand_name "ready" ;;
  r <~ is_ready ;;
  toggle_flag name r ;;;
  changed <~ expand_name "changed" ;;
  clear_flag changed.

(** Handler of [@when_not('endpoint.{endpoint_name}.joined')]. *)
Definition remove_ready : M unit :=
  name <~ expand_name "ready" ;;
  clear_flag name.

(** ** The methods of the class, as one type *)

Inductive method : Type :=
  | m_received | m_to_publish
  | m_check_ready | m_remove_ready | m_is_ready
  | m_auth_url | m_region | m_username | m_password
  | m_user_domain_name | m_project_domain_name | m_project_name
  | m_endpoint_tls_ca | m_subnet_id | m_floating_network_id | m_lb_method
  | m_manage_security_groups | m_node_security_group.

Definition method_eq_dec (m1 m2 : method) : {m1 = m2} + {m1 <> m2}.
Proof. decide equality. Defined.

(** A call whose value is dropped. *)
Definition void {A} (m : M A) : M unit := m ;;; ret tt.

Definition call (m : method) : M unit :=
  match m with
  | m_received => void _received
  | m_to_publish => void _to_publish
  | m_check_ready => check_ready
  | m_remove_ready => remove_ready
  | m_is_ready => void is_ready
  | m_auth_url => void auth_url
  | m_region => void region
  | m_username => void username
  | m_password => void password
  | m_user_domain_name => void user_domain_name
  | m_project_domain_name => void project_domain_name
  | m_project_name => void project_name
  | m_endpoint_tls_ca => void endpoint_tls_ca
  | m_subnet_id => void subnet_id
  | m_floating_network_id => void floating_network_id
  | m_lb_method => void lb_method
  | m_manage_security_groups => void manage_security_groups
  | m_node_security_group => void node_security_group
  end.

(** The accessors that hand out the received value as it is, by key. *)
Definition plain_accessors : list (string * M pyval) :=
  [("auth_url", auth_url); ("region", region); ("username", username);
   ("password", password); ("user_domain_name", user_domain_name);
   ("project_domain_name", project_domain_name);
   ("project_name", project_name); ("subnet_id", subnet_id);
   ("floating_network_id", floating_network_id); ("lb_method", lb_method);
   ("node_security_group", node_security_group)].

(** All thirteen field accessors, by key. *)
Definition accessors : list (string * M pyval) :=
  plain_accessors
  ++ [("endpoint_tls_ca", endpoint_tls_ca);
      ("manage_security_groups", manage_security_groups)].

(** The keys [is_ready] insists on. *)
Definition required_fields : list string :=
  ["auth_url"; "username"; "password"; "user_domain_name";
   "project_domain_name"; "project_name"].

(** The keys [is_ready] reads. *)
Definition readiness_fields : list string :=
  "node_security_group" :: "manage_security_groups" :: required_fields.

(** ** Observations *)

(** [m] run in [w] returns [v] and leaves [w] as it was. *)
Definition returns {A} (m : M A) (w : World) (v : A) : Prop :=
  m w = (Ret v, w).

(** [m] run in [w] raises [e] and leaves [w] as it was. *)
Definition raises {A} (m : M A) (w : World) (e : exn) : Prop :=
  m w = (Raise e, w).

(** The world a call leaves. *)
Definition after {A} (m : M A) (w : World) : World := snd (m w).

(** The name of a flag of the endpoint, as [expand_name] builds it. *)
Definition flag_name (w : World) (flag : string) : string :=
  "endpoint." ++ endpoint_name w ++ "." ++ flag.

(** The code's readiness, read off a field set. *)
Definition ready_value (fs : gmap string pyval) : bool :=
  (truthy (getitem fs "node_security_group")
   || negb (truthy (getitem fs "manage_security_groups")))
  && forallb is_not_None
       [getitem fs "auth_url"; getitem fs "username"; getitem fs "password";
        getitem fs "user_domain_name"; getitem fs "project_domain_name";
        getitem fs "project_name"].

(** ** The readiness predicate in the words of the specification *)

(** [security_ok = node_security_group != null OR
    manage_security_groups == false], over the values of the accessors. *)
Definition spec_security_ok (nsg msg : pyval) : bool :=
  is_not_None nsg || py_eq_False msg.

Definition spec_ready (nsg msg : pyval) (required : list pyval) : bool :=
  spec_security_ok nsg msg && forallb is_not_None required.

(** Readiness is exactly the specification's predicate, on every endpoint
    whose accessors return. *)
Definition readiness_as_specified : Prop :=
  forall (w : World) (nsg msg a u p ud pd pn : pyval),
    returns node_security_group w nsg ->
    returns manage_security_groups w msg ->
    returns auth_url w a ->
    returns username w u ->
    returns password w p ->
    returns user_domain_name w ud ->
    returns project_domain_name w pd ->
    returns project_name w pn ->
    (returns is_ready w (PyBool true)
     <-> spec_ready nsg msg [a; u; p; ud; pd; pn] = true).

(** No accessor and no method raises, in any state of the endpoint. *)
Definition nothing_raises : Prop :=
  forall w : World,
    (forall key m, (key, m) ∈ accessors -> exists v, returns m w v)
    /\ (forall mth, exists w', call mth w = (Ret tt, w')).

(** ** The flag state machine *)

(** Modelled from the spec: the dispatcher that owns the [joined] and
    [changed] flags and the relation data is the host framework's and is
    not part of this class. A relation is established (the framework sets
    [joined]), its data change (the framework stores them and sets
    [changed]), it is torn down (the framework removes [joined]); between
    these the dispatcher invokes a handler of the class whose decorator
    holds: [check_ready] when [changed] is set, [remove_ready] when
    [joined] is not set. *)
Inductive event : Type :=
  | RelationJoined (r : Relation)
  | RelationChanged (fs : gmap string pyval)
  | RelationBroken
  | DispatchCheckReady
  | DispatchRemoveReady.

Definition fire (ev : event) (w : World) : option World :=
  match ev with
  | RelationJoined r =>
      Some (after (set_flag (flag_name w "joined")) (with_relations [r] w))
  | RelationChanged fs =>
      match relations w with
      | [] => None
      | r :: rs =>
          Some (after (set_flag (flag_name w "changed"))
                  (with_relations (mkRelation fs (to_publish r) :: rs) w))
      end
  | RelationBroken =>
      Some (after (clear_flag (flag_name w "joined")) (with_relations [] w))
  | DispatchCheckReady =>
      if is_flag_set (flag_name w "changed") w
      then Some (after check_ready w) else None
  | DispatchRemoveReady =>
      if is_flag_set (flag_name w "joined") w
      then None else Some (after remove_ready w)
  end.

Fixpoint run (evs : list event) (w : World) : option World :=
  match evs with
  | [] => Some w
  | ev :: evs' =>
      match fire ev w with
      | Some w' => run evs' w'
      | None => None
      end
  end.

(** No relation and no flag. *)
Definition initial (name : string) : World := mkWorld ∅ name [].

Definition reachable (w : World) : Prop :=
  exists name evs, run evs (initial name) = Some w.

Definition is_check_ready (ev : event) : bool :=
  match ev with DispatchCheckReady => true | _ => false end.

(** The [ready] flag is never set while the [joined] flag is not, in any
    state the machine reaches. *)
Definition ready_only_while_joined : Prop :=
  forall w : World,
    reachable w ->
    is_flag_set (flag_name w "ready") w = true ->
    is_flag_set (flag_name w "joined") w = true.

(** ** Sample field sets *)

Definition scenario_A : gmap string pyval :=
  list_to_map
    [("auth_url", PyStr "u"); ("username", PyStr "a");
     ("password", PyStr "p"); ("user_domain_name", PyStr "d1");
     ("project_domain_name", PyStr "d2"); ("project_name", PyStr "proj")].

Definition scenario_B : gmap string pyval :=
  <["node_security_group" := PyNone]>
    (<["manage_security_groups" := PyBool true]> scenario_A).

Definition scenario_C : gmap string pyval :=
  <["node_security_group" := PyStr "sg-1"]> scenario_B.

Definition scenario_D : gmap string pyval := delete "password" scenario_A.

(** The group id is sent, and is the empty string. *)
Definition empty_group : gmap string pyval :=
  <["node_security_group" := PyStr ""]> scenario_B.

(** An endpoint with one relation that received [fs]. *)
Definition connected (fs : gmap string pyval) : World :=
  mkWorld ∅ "openstack" [mkRelation fs ∅].

(** An endpoint with no relation. *)
Definition unconnected : World := initial "openstack".

(** * Properties *)

(** ** Running the accessors *)

Lemma bind_run {A B} (m : M A) (k : A -> M B) w a w' :
  m w = (Ret a, w') -> bind m k w = k a w'.
Proof. intros H. unfold bind. by rewrite H. Qed.

Lemma bind_raise {A B} (m : M A) (k : A -> M B) w e w' :
  m w = (Raise e, w') -> bind m k w = (Raise e, w').
Proof. intros H. unfold bind. by rewrite H. Qed.

Section Connected.
Variables (w : World) (r : Relation) (rs : list Relation).
Hypothesis Hrel : relations w = r :: rs.

Lemma received_run : _received w = (Ret (received r), w).
Proof using Hrel.
  unfold _received, bind, first_relation. by rewrite Hrel.
Qed.

Lemma received_item_run key :
  received_item key w = (Ret (getitem (received r) key), w).
Proof using Hrel.
  unfold received_item. by rewrite (bind_run _ _ _ _ _ received_run).
Qed.

Lemma or_default_run key d :
  py_or (received_item key) (ret d) w
  = (Ret (if truthy (getitem (received r) key)
          then getitem (received r) key else d), w).
Proof using Hrel.
  unfold py_or. rewrite (bind_run _ _ _ _ _ (received_item_run key)).
  by destruct (truthy _).
Qed.

Lemma sequence_received_run (keys : list string) :
  sequence (map received_item keys) w
  = (Ret (map (getitem (received r)) keys), w).
Proof using Hrel.
  induction keys as [|key keys IH]; [done|].
  cbn [map sequence].
  rewrite (bind_run _ _ _ _ _ (received_item_run key)).
  by rewrite (bind_run _ _ _ _ _ IH).
Qed.

Lemma sec_grp_run :
  py_or node_security_group
        (m <~ manage_security_groups ;; ret (py_not m)) w
  = (Ret (if truthy (getitem (received r) "node_security_group")
          then getitem (received r) "node_security_group"
          else PyBool
                 (negb (truthy
                          (getitem (received r) "manage_security_groups")))),
     w).
Proof using Hrel.
  unfold py_or at 1, node_security_group.
  rewrite (bind_run _ _ _ _ _ (received_item_run _)).
  destruct (truthy (getitem (received r) "node_security_group")); [done|].
  unfold manage_security_groups.
  rewrite (bind_run _ _ _ _ _ (or_default_run _ _)).
  unfold ret, py_not.
  by destruct (truthy (getitem (received r) "manage_security_groups"))
    eqn:Hm; rewrite ?Hm.
Qed.

Lemma is_ready_run :
  is_ready w = (Ret (PyBool (ready_value (received r))), w).
Proof using Hrel.
  unfold is_ready, ready_value.
  rewrite (bind_run _ _ _ _ _ sec_grp_run).
  unfold py_and. rewrite (bind_run (ret _) _ w _ w eq_refl).
  change [auth_url; username; password; user_domain_name;
          project_domain_name; project_name]
    with (map received_item
            ["auth_url"; "username"; "password"; "user_domain_name";
             "project_domain_name"; "project_name"]).
  destruct (truthy (getitem (received r) "node_security_group")) eqn:Hn.
  - rewrite Hn, (bind_run _ _ _ _ _ (sequence_received_run _)). done.
  - destruct (truthy (getitem (received r) "manage_security_groups"));
      cbn [negb truthy orb andb]; [done|].
    by rewrite (bind_run _ _ _ _ _ (sequence_received_run _)).
Qed.
End Connected.

Section Disconnected.
Variable w : World.
Hypothesis Hnone : relations w = [].

Lemma received_raise : _received w = (Raise IndexError, w).
Proof using Hnone.
  unfold _received, bind, first_relation. by rewrite Hnone.
Qed.

Lemma received_item_raise key :
  received_item key w = (Raise IndexError, w).
Proof using Hnone.
  unfold received_item. by rewrite (bind_raise _ _ _ _ _ received_raise).
Qed.

Lemma or_default_raise key d :
  py_or (received_item key) (ret d) w = (Raise IndexError, w).
Proof using Hnone.
  unfold py_or. by rewrite (bind_raise _ _ _ _ _ (received_item_raise key)).
Qed.

Lemma is_ready_raise : is_ready w = (Raise IndexError, w).
Proof using Hnone.
  unfold is_ready, py_or at 1, node_security_group.
  rewrite (bind_raise _ _ w IndexError w); [done|].
  by rewrite (bind_raise _ _ _ _ _ (received_item_raise _)).
Qed.

Lemma check_ready_raise : check_ready w = (Raise IndexError, w).
Proof using Hnone.
  unfold check_ready.
  rewrite (bind_run (expand_name "ready") _ w _ w eq_refl).
  by rewrite (bind_raise _ _ _ _ _ is_ready_raise).
Qed.
End Disconnected.

Lemma remove_ready_run w :
remove_ready w
= (Ret tt, with_flags (flags w ∖ {[flag_name w "ready"]}) w).
Proof. reflexivity. Qed.

Lemma check_ready_run w r rs :
relations w = r :: rs ->
check_ready w
= (Ret tt,
   with_flags
     ((if ready_value (received r)
       then {[flag_name w "ready"]} ∪ flags w
       else flags w ∖ {[flag_name w "ready"]})
      ∖ {[flag_name w "changed"]}) w).
Proof.
intros Hrel. unfold check_ready.
rewrite (bind_run (expand_name "ready") _ w _ w eq_refl).
rewrite (bind_run _ _ _ _ _ (is_ready_run w r rs Hrel)).
unfold toggle_flag. cbn [truthy].
by destruct (ready_value (received r)).
Qed.

Lemma ready_value_true_iff (fs : gmap string pyval) :
ready_value fs = true <->
(truthy (getitem fs "node_security_group") = true
 \/ truthy (getitem fs "manage_security_groups") = false)
/\ getitem fs "auth_url" <> PyNone
/\ getitem fs "username" <> PyNone
/\ getitem fs "password" <> PyNone
/\ getitem fs "user_domain_name" <> PyNone
/\ getitem fs "project_domain_name" <> PyNone
/\ getitem fs "project_name" <> PyNone.
Proof.
unfold ready_value. cbn [forallb].
rewrite !andb_true_iff, orb_true_iff, negb_true_iff.
assert (Hnn : forall v, is_not_None v = true <-> v <> PyNone)
  by (intros v; destruct v; cbn; split; (done || congruence)).
rewrite !Hnn. tauto.
Qed.

Lemma flag_name_ready_changed w : flag_name w "ready" <> flag_name w "changed".
Proof.
unfold flag_name. intros H.
do 2 apply (inj (String.append _)) in H. discriminate H.
Qed.

(** ** The scenarios of the specification *)

Example scenario_A_ready :
  is_ready (connected scenario_A) = (Ret (PyBool true), connected scenario_A).
Proof. vm_compute. reflexivity. Qed.

Example scenario_B_not_ready :
  is_ready (connected scenario_B) = (Ret (PyBool false), connected scenario_B).
Proof. vm_compute. reflexivity. Qed.

Example scenario_C_ready :
  is_ready (connected scenario_C) = (Ret (PyBool true), connected scenario_C).
Proof. vm_compute. reflexivity. Qed.

Example scenario_D_not_ready :
  is_ready (connected scenario_D) = (Ret (PyBool false), connected scenario_D).
Proof. vm_compute. reflexivity. Qed.

(** ** Reading changes nothing *)

Lemma received_item_after key w : after (received_item key) w = w.
Proof.
  unfold after. destruct (relations w) as [|r rs] eqn:Hrel.
  - by rewrite received_item_raise.
  - by rewrite (received_item_run w r rs).
Qed.

Lemma or_default_after key d w :
  after (py_or (received_item key) (ret d)) w = w.
Proof.
  unfold after. destruct (relations w) as [|r rs] eqn:Hrel.
  - by rewrite or_default_raise.
  - by rewrite (or_default_run w r rs).
Qed.

Lemma is_ready_after w : after is_ready w = w.
Proof.
  unfold after. destruct (relations w) as [|r rs] eqn:Hrel.
  - by rewrite is_ready_raise.
  - by rewrite (is_ready_run w r rs).
Qed.

Lemma void_after {A} (m : M A) w : after m w = w -> after (void m) w = w.
Proof.
  unfold after, void, bind. destruct (m w) as [[a|e] w']; cbn; done.
Qed.

(** ** The field set decides *)

Lemma getitem_absent (fs : gmap string pyval) key :
  fs !! key = None \/ fs !! key = Some PyNone -> getitem fs key = PyNone.
Proof. unfold getitem. by intros [-> | ->]. Qed.

Lemma getitem_agree (fs1 fs2 : gmap string pyval) key :
  fs1 !! key = fs2 !! key -> getitem fs1 key = getitem fs2 key.
Proof. unfold getitem. by intros ->. Qed.

Lemma ready_value_agree (fs1 fs2 : gmap string pyval) :
  (forall key, key ∈ readiness_fields -> fs1 !! key = fs2 !! key) ->
  ready_value fs1 = ready_value fs2.
Proof.
  intros Hagree. unfold ready_value.
  assert (Hget : forall key, key ∈ readiness_fields ->
                             getitem fs1 key = getitem fs2 key)
    by (intros key Hin; by apply getitem_agree, Hagree).
  unfold readiness_fields, required_fields in Hget.
  rewrite (Hget "node_security_group"), (Hget "manage_security_groups"),
    (Hget "auth_url"), (Hget "username"), (Hget "password"),
    (Hget "user_domain_name"), (Hget "project_domain_name"),
    (Hget "project_name") by repeat constructor.
  reflexivity.
Qed.

Lemma ready_value_required_missing (fs : gmap string pyval) key :
  key ∈ required_fields -> getitem fs key = PyNone -> ready_value fs = false.
Proof.
  intros Hin Hnone. unfold ready_value. apply andb_false_iff. right.
  unfold required_fields in Hin.
  repeat (apply elem_of_cons in Hin as [-> | Hin];
          [cbn [forallb]; rewrite Hnone; cbn;
           rewrite ?andb_false_r; reflexivity|]).
  by apply elem_of_nil in Hin.
Qed.

(** ** Readiness *)

(** C2. With a relation whose received data lack one of the six required
    fields, or carry [None] for it, [is_ready] returns [False]. *)
Theorem is_ready_false_when_required_missing
    (w : World) (r : Relation) (rs : list Relation) (key : string) :
  relations w = r :: rs ->
  key ∈ required_fields ->
  received r !! key = None \/ received r !! key = Some PyNone ->
  returns is_ready w (PyBool false).
Proof.
  intros Hrel Hin Hmiss. unfold returns.
  rewrite (is_ready_run w r rs Hrel).
  by rewrite (ready_value_required_missing _ key Hin (getitem_absent _ _ Hmiss)).
Qed.

Lemma is_ready_false_when_required_missing_witness :
  returns is_ready (connected scenario_D) (PyBool false).
Proof.
  apply (is_ready_false_when_required_missing
           (connected scenario_D) (mkRelation scenario_D ∅) [] "password").
  - reflexivity.
  - unfold required_fields. repeat constructor.
  - left. vm_compute. reflexivity.
Defined.

(** C6. When [manage_security_groups] was not sent, its accessor returns
    [False], not [None]; readiness is then the same for any two field sets
    that differ on [node_security_group] only, and with the six required
    fields present [is_ready] returns [True] whatever the group is. *)
Theorem manage_security_groups_absent
    (w : World) (r : Relation) (rs : list Relation) :
  relations w = r :: rs ->
  received r !! "manage_security_groups" = None ->
  returns manage_security_groups w (PyBool false)
  /\ (forall w' r' rs',
        relations w' = r' :: rs' ->
        (forall key, key <> "node_security_group" ->
                     received r' !! key = received r !! key) ->
        fst (is_ready w') = fst (is_ready w))
  /\ ((forall key, key ∈ required_fields ->
                   getitem (received r) key <> PyNone) ->
      returns is_ready w (PyBool true)).
Proof.
  intros Hrel Habs.
  assert (Hm : getitem (received r) "manage_security_groups" = PyNone)
    by (apply getitem_absent; by left).
  split; [|split].
  - unfold returns, manage_security_groups.
    rewrite (or_default_run w r rs Hrel), Hm. reflexivity.
  - intros w' r' rs' Hrel' Hagree.
    rewrite (is_ready_run w r rs Hrel), (is_ready_run w' r' rs' Hrel').
    cbn [fst]. f_equal. f_equal. unfold ready_value.
    assert (Hget : forall key, key <> "node_security_group" ->
                     getitem (received r') key = getitem (received r) key)
      by (intros key Hne; by apply getitem_agree, Hagree).
    rewrite (Hget "manage_security_groups"), (Hget "auth_url"),
      (Hget "username"), (Hget "password"), (Hget "user_domain_name"),
      (Hget "project_domain_name"), (Hget "project_name") by done.
    rewrite Hm. cbn [truthy negb]. by rewrite !orb_true_r.
  - intros Hreq. unfold returns. rewrite (is_ready_run w r rs Hrel).
    assert (Hv : ready_value (received r) = true); [|by rewrite Hv].
    apply ready_value_true_iff. rewrite Hm.
    split; [by right|].
    unfold required_fields in Hreq.
    repeat split; apply Hreq; repeat constructor.
Qed.

Lemma manage_security_groups_absent_witness :
  returns manage_security_groups (connected scenario_A) (PyBool false)
  /\ fst (is_ready (connected (<["node_security_group" := PyStr ""]>
                                scenario_A)))
     = fst (is_ready (connected scenario_A))
  /\ returns is_ready (connected scenario_A) (PyBool true).
Proof.
  destruct (manage_security_groups_absent
              (connected scenario_A) (mkRelation scenario_A ∅) []
              eq_refl eq_refl) as (Hm & Hind & Hready).
  split; [exact Hm|]. split.
  - apply (Hind (connected (<["node_security_group" := PyStr ""]>
                              scenario_A)) (mkRelation _ ∅) [] eq_refl).
    intros key Hne. cbn [received]. by rewrite lookup_insert_ne.
  - apply Hready. intros key Hin. unfold required_fields in Hin.
    repeat (apply elem_of_cons in Hin as [-> | Hin]; [by vm_compute|]).
    by apply elem_of_nil in Hin.
Defined.

(** C7. Evaluating [is_ready] changes neither the flags nor the relation
    data, two evaluations in a row give the same result, and the result
    depends on the world only through the received field set. *)
Theorem is_ready_pure (w : World) :
  after is_ready w = w
  /\ (a <~ is_ready ;; b <~ is_ready ;; ret (a, b)) w
     = (match fst (is_ready w) with
        | Ret v => Ret (v, v)
        | Raise e => Raise e
        end, w)
  /\ forall w', fst (_received w') = fst (_received w) ->
                fst (is_ready w') = fst (is_ready w).
Proof.
  split; [apply is_ready_after|]. split.
  - destruct (relations w) as [|r rs] eqn:Hrel.
    + by rewrite (bind_raise _ _ _ _ _ (is_ready_raise w Hrel)),
        (is_ready_raise w Hrel).
    + rewrite (bind_run _ _ _ _ _ (is_ready_run w r rs Hrel)).
      by rewrite (bind_run _ _ _ _ _ (is_ready_run w r rs Hrel)),
        (is_ready_run w r rs Hrel).
  - intros w'.
    destruct (relations w) as [|r rs] eqn:Hrel;
      destruct (relations w') as [|r' rs'] eqn:Hrel'.
    + by rewrite (is_ready_raise w Hrel), (is_ready_raise w' Hrel').
    + rewrite (received_raise w Hrel), (received_run w' r' rs' Hrel').
      discriminate.
    + rewrite (received_run w r rs Hrel), (received_raise w' Hrel').
      discriminate.
    + rewrite (received_run w r rs Hrel), (received_run w' r' rs' Hrel').
      rewrite (is_ready_run w r rs Hrel), (is_ready_run w' r' rs' Hrel').
      cbn [fst]. by intros [= ->].
Qed.

Lemma is_ready_pure_witness :
  fst (is_ready (mkWorld {["endpoint.openstack.changed"]} "openstack"
                   [mkRelation scenario_C scenario_A]))
  = fst (is_ready (connected scenario_C)).
Proof.
  destruct (is_ready_pure (connected scenario_C)) as (_ & _ & Hfun).
  apply Hfun. reflexivity.
Defined.

(** C8. [is_ready] does not read the optional fields [region],
    [endpoint_tls_ca], [subnet_id], [floating_network_id] and [lb_method]:
    two field sets that agree on the six required fields, on
    [manage_security_groups] and on [node_security_group] give the same
    result. *)
Theorem is_ready_ignores_optional_fields
    (w1 w2 : World) (r1 r2 : Relation) (rs1 rs2 : list Relation) :
  relations w1 = r1 :: rs1 ->
  relations w2 = r2 :: rs2 ->
  (forall key, key ∈ readiness_fields ->
               received r1 !! key = received r2 !! key) ->
  fst (is_ready w1) = fst (is_ready w2).
Proof.
  intros Hrel1 Hrel2 Hagree.
  rewrite (is_ready_run w1 r1 rs1 Hrel1), (is_ready_run w2 r2 rs2 Hrel2).
  cbn [fst]. by rewrite (ready_value_agree _ _ Hagree).
Qed.

Lemma is_ready_ignores_optional_fields_witness :
  fst (is_ready
         (connected (<["region" := PyStr "RegionOne"]>
                       (<["endpoint_tls_ca" := PyStr ""]>
                          (<["subnet_id" := PyInt 7]>
                             (<["floating_network_id" := PyNone]>
                                (<["lb_method" := PyStr "ROUND_ROBIN"]>
                                   scenario_C)))))))
  = fst (is_ready (connected scenario_C)).
Proof.
  apply (is_ready_ignores_optional_fields (connected _) (connected _)
           (mkRelation _ ∅) (mkRelation _ ∅) [] [] eq_refl eq_refl).
  intros key Hin. cbn [received].
  unfold readiness_fields, required_fields in Hin.
  repeat (apply elem_of_cons in Hin as [-> | Hin]; [by vm_compute|]).
  by apply elem_of_nil in Hin.
Defined.

(** ** The accessors *)

Lemma plain_accessor_unfold key m :
  (key, m) ∈ plain_accessors -> m = received_item key.
Proof.
  unfold plain_accessors. intros Hin.
  repeat (apply elem_of_cons in Hin as [[= -> ->] | Hin]; [reflexivity|]).
  by apply elem_of_nil in Hin.
Qed.

(** C9. [endpoint_tls_ca] returns [None] when the received value is
    absent, [None] or any other false value, the empty string among them,
    and the received value itself otherwise; [region], [subnet_id],
    [floating_network_id], [lb_method] and [node_security_group] return
    what was received as it is, the empty string too. *)
Theorem endpoint_tls_ca_coerces_false_values
    (w : World) (r : Relation) (rs : list Relation) :
  relations w = r :: rs ->
  returns endpoint_tls_ca w
    (if truthy (getitem (received r) "endpoint_tls_ca")
     then getitem (received r) "endpoint_tls_ca" else PyNone)
  /\ ~ returns endpoint_tls_ca w (PyStr "")
  /\ returns region w (getitem (received r) "region")
  /\ returns subnet_id w (getitem (received r) "subnet_id")
  /\ returns floating_network_id w (getitem (received r) "floating_network_id")
  /\ returns lb_method w (getitem (received r) "lb_method")
  /\ returns node_security_group w (getitem (received r) "node_security_group")
  /\ forall key m,
       (key, m) ∈ plain_accessors ->
       received r !! key = Some (PyStr "") ->
       returns m w (PyStr "").
Proof.
  intros Hrel.
  assert (Htls := or_default_run w r rs Hrel "endpoint_tls_ca" PyNone).
  repeat split; try apply (received_item_run w r rs Hrel).
  - exact Htls.
  - unfold returns, endpoint_tls_ca. rewrite Htls.
    destruct (truthy (getitem (received r) "endpoint_tls_ca")) eqn:Ht.
    + intros [= Heq]. by rewrite Heq in Ht.
    + discriminate.
  - intros key m Hin Hempty. rewrite (plain_accessor_unfold key m Hin).
    unfold returns. rewrite (received_item_run w r rs Hrel).
    unfold getitem. by rewrite Hempty.
Qed.

Lemma endpoint_tls_ca_coerces_false_values_witness :
  let w := connected (<["endpoint_tls_ca" := PyStr ""]>
                        (<["subnet_id" := PyStr ""]> scenario_A)) in
  returns endpoint_tls_ca w PyNone /\ returns subnet_id w (PyStr "").
Proof.
  intros w.
  destruct (endpoint_tls_ca_coerces_false_values w (mkRelation _ ∅) []
              eq_refl) as (Htls & _ & _ & Hsub & _).
  split; [exact Htls | exact Hsub].
Defined.

(** C10. [manage_security_groups] returns the received value itself
    when that value is true and [False] when it is false or absent: never
    [None], and not always a boolean, a non-empty string comes back as
    the string. *)
Theorem manage_security_groups_value
    (w : World) (r : Relation) (rs : list Relation) :
  relations w = r :: rs ->
  returns manage_security_groups w
    (if truthy (getitem (received r) "manage_security_groups")
     then getitem (received r) "manage_security_groups" else PyBool false)
  /\ ~ returns manage_security_groups w PyNone
  /\ forall s,
       s <> "" ->
       received r !! "manage_security_groups" = Some (PyStr s) ->
       returns manage_security_groups w (PyStr s).
Proof.
  intros Hrel.
  assert (Hm := or_default_run w r rs Hrel "manage_security_groups"
                  (PyBool false)).
  split; [exact Hm|]. split.
  - unfold returns, manage_security_groups. rewrite Hm.
    destruct (truthy (getitem (received r) "manage_security_groups")) eqn:Ht.
    + intros [= Heq]. by rewrite Heq in Ht.
    + discriminate.
  - intros s Hs Hsent. unfold returns, manage_security_groups.
    rewrite Hm. unfold getitem. rewrite Hsent. simpl.
    destruct (String.eqb_spec s ""); [done|reflexivity].
Qed.

Lemma manage_security_groups_value_witness :
  returns manage_security_groups
    (connected (<["manage_security_groups" := PyStr "yes"]> scenario_A))
    (PyStr "yes").
Proof.
  destruct (manage_security_groups_value
              (connected (<["manage_security_groups" := PyStr "yes"]>
                            scenario_A)) (mkRelation _ ∅) [] eq_refl)
    as (_ & _ & Hstr).
  apply Hstr; [discriminate | reflexivity].
Defined.

(** ** Readiness against the specification's predicate *)

Lemma py_eq_False_or_default v :
  py_eq_False (if truthy v then v else PyBool false) = negb (truthy v).
Proof.
  destruct v as [|b|z|f|s|l|d]; cbn; try reflexivity.
  - by destruct b.
  - by destruct (Z.eqb z 0) eqn:Hz; cbn; rewrite ?Hz.
  - by destruct f.
  - by destruct (String.eqb s "").
  - by destruct l.
  - by destruct d.
Qed.

Lemma returns_connected key w v :
  returns (received_item key) w v ->
  exists r rs, relations w = r :: rs.
Proof.
  unfold returns. destruct (relations w) as [|r rs] eqn:Hrel; [|eauto].
  by rewrite (received_item_raise w Hrel).
Qed.

Lemma returns_item key w r rs v :
  relations w = r :: rs ->
  returns (received_item key) w v -> v = getitem (received r) key.
Proof.
  unfold returns. intros Hrel. rewrite (received_item_run w r rs Hrel).
  by intros [= ->].
Qed.

(** C1 (as amended). On an endpoint with a relation, [is_ready] returns
    [True] exactly when [node_security_group] is a true value (neither
    [None] nor empty) or [manage_security_groups] is [False], and each of
    the six required fields is not [None]; otherwise it returns [False].
    In particular the six fields together with a true group id, or with
    [manage_security_groups] false, give [True]. *)
Theorem is_ready_iff (w : World) (nsg msg a u p ud pd pn : pyval) :
  returns node_security_group w nsg ->
  returns manage_security_groups w msg ->
  returns auth_url w a ->
  returns username w u ->
  returns password w p ->
  returns user_domain_name w ud ->
  returns project_domain_name w pd ->
  returns project_name w pn ->
  (returns is_ready w (PyBool true)
   <-> (truthy nsg = true \/ py_eq_False msg = true)
       /\ a <> PyNone /\ u <> PyNone /\ p <> PyNone
       /\ ud <> PyNone /\ pd <> PyNone /\ pn <> PyNone)
  /\ (returns is_ready w (PyBool true) \/ returns is_ready w (PyBool false)).
Proof.
  intros Hnsg Hmsg Ha Hu Hp Hud Hpd Hpn.
  destruct (returns_connected _ _ _ Ha) as (r & rs & Hrel).
  apply (returns_item _ _ r rs _ Hrel) in Hnsg, Ha, Hu, Hp, Hud, Hpd, Hpn.
  unfold returns, manage_security_groups in Hmsg.
  rewrite (or_default_run w r rs Hrel) in Hmsg.
  injection Hmsg as Hmsg. subst.
  unfold returns. rewrite (is_ready_run w r rs Hrel).
  rewrite py_eq_False_or_default, negb_true_iff.
  rewrite <- ready_value_true_iff.
  split.
  - split; [by intros [= ->] | by intros ->].
  - destruct (ready_value (received r)); [by left | by right].
Qed.

Lemma is_ready_iff_witness :
  returns is_ready (connected scenario_C) (PyBool true).
Proof.
  apply (is_ready_iff (connected scenario_C) (PyStr "sg-1") (PyBool true)
           (PyStr "u") (PyStr "a") (PyStr "p") (PyStr "d1") (PyStr "d2")
           (PyStr "proj")); try (vm_compute; reflexivity).
  split; [left; reflexivity|]. repeat split; discriminate.
Defined.

(** C1 (as stated) fails: the group id sent as the empty string is not
    [None], so the specification's predicate holds, yet with
    [manage_security_groups] true [is_ready] returns [False]. *)
Lemma is_ready_empty_group_counterexample :
  returns node_security_group (connected empty_group) (PyStr "")
  /\ returns manage_security_groups (connected empty_group) (PyBool true)
  /\ spec_ready (PyStr "") (PyBool true)
       [PyStr "u"; PyStr "a"; PyStr "p"; PyStr "d1"; PyStr "d2";
        PyStr "proj"] = true
  /\ returns is_ready (connected empty_group) (PyBool false)
  /\ ~ readiness_as_specified.
Proof.
  assert (Hfalse : returns is_ready (connected empty_group) (PyBool false))
    by (vm_compute; reflexivity).
  repeat split; try (vm_compute; reflexivity).
  intros Hspec.
  specialize (Hspec (connected empty_group) (PyStr "") (PyBool true)
                (PyStr "u") (PyStr "a") (PyStr "p") (PyStr "d1")
                (PyStr "d2") (PyStr "proj")).
  destruct Hspec as [_ Hback]; try (vm_compute; reflexivity).
  specialize (Hback eq_refl).
  unfold returns in Hfalse, Hback. rewrite Hfalse in Hback. discriminate.
Qed.

(** ** With and without a relation *)

Lemma void_run {A} (m : M A) w v w' :
  m w = (Ret v, w') -> void m w = (Ret tt, w').
Proof. intros H. unfold void. by rewrite (bind_run _ _ _ _ _ H). Qed.

Lemma to_publish_run w r rs :
  relations w = r :: rs -> _to_publish w = (Ret (to_publish r), w).
Proof.
  intros Hrel. unfold _to_publish, bind, first_relation. by rewrite Hrel.
Qed.

Lemma accessors_cases key m :
  (key, m) ∈ accessors ->
  (key, m) ∈ plain_accessors
  \/ (key = "endpoint_tls_ca" /\ m = endpoint_tls_ca)
  \/ (key = "manage_security_groups" /\ m = manage_security_groups).
Proof.
  unfold accessors. rewrite elem_of_app, !elem_of_cons, elem_of_nil.
  intros [Hin | [[= -> ->] | [[= -> ->] | []]]]; auto.
Qed.

Lemma call_run w r rs mth :
  relations w = r :: rs -> exists w', call mth w = (Ret tt, w').
Proof.
  intros Hrel.
  destruct mth; cbn [call];
    try (eexists; apply (void_run _ _ _ _ (received_item_run w r rs Hrel _)));
    try (eexists; apply (void_run _ _ _ _ (or_default_run w r rs Hrel _ _))).
  - eexists. apply (void_run _ _ _ _ (received_run w r rs Hrel)).
  - eexists. apply (void_run _ _ _ _ (to_publish_run w r rs Hrel)).
  - eexists. apply (check_ready_run w r rs Hrel).
  - eexists. apply remove_ready_run.
  - eexists. apply (void_run _ _ _ _ (is_ready_run w r rs Hrel)).
Qed.

(** C3 (as amended). On an endpoint with a relation every field accessor
    returns rather than raises: the eleven plain accessors return the
    received value as it is, [endpoint_tls_ca] the received value when it
    is true and [None] otherwise, [manage_security_groups] the received
    value when it is true and [False] otherwise; for a field that was not
    sent each accessor returns [None] ([False] for
    [manage_security_groups]); and no method raises. With no relation
    every field accessor, [is_ready] and [check_ready] raise [IndexError];
    [remove_ready] returns in both cases. *)
Theorem accessors_return_or_raise (w : World) :
  (exists w', remove_ready w = (Ret tt, w'))
  /\ match relations w with
     | r :: _ =>
         (forall key m, (key, m) ∈ plain_accessors ->
                        returns m w (getitem (received r) key))
         /\ returns endpoint_tls_ca w
              (if truthy (getitem (received r) "endpoint_tls_ca")
               then getitem (received r) "endpoint_tls_ca" else PyNone)
         /\ returns manage_security_groups w
              (if truthy (getitem (received r) "manage_security_groups")
               then getitem (received r) "manage_security_groups"
               else PyBool false)
         /\ (forall key m,
               (key, m) ∈ accessors ->
               received r !! key = None ->
               returns m w (if String.eqb key "manage_security_groups"
                            then PyBool false else PyNone))
         /\ (forall mth, exists w', call mth w = (Ret tt, w'))
     | [] =>
         (forall key m, (key, m) ∈ accessors -> raises m w IndexError)
         /\ raises is_ready w IndexError
         /\ raises check_ready w IndexError
     end.
Proof.
  split; [eexists; apply remove_ready_run|].
  destruct (relations w) as [|r rs] eqn:Hrel.
  - split; [|split].
    + intros key m Hin.
      destruct (accessors_cases key m Hin) as [Hp | [[-> ->] | [-> ->]]].
      * rewrite (plain_accessor_unfold key m Hp).
        apply (received_item_raise w Hrel).
      * apply (or_default_raise w Hrel).
      * apply (or_default_raise w Hrel).
    + apply (is_ready_raise w Hrel).
    + apply (check_ready_raise w Hrel).
  - assert (Hplain : forall key m, (key, m) ∈ plain_accessors ->
                       returns m w (getitem (received r) key)).
    { intros key m Hin. rewrite (plain_accessor_unfold key m Hin).
      apply (received_item_run w r rs Hrel). }
    repeat split.
    + exact Hplain.
    + apply (or_default_run w r rs Hrel).
    + apply (or_default_run w r rs Hrel).
    + intros key m Hin Habs.
      assert (Hnone : getitem (received r) key = PyNone)
        by (apply getitem_absent; by left).
      destruct (accessors_cases key m Hin) as [Hp | [[-> ->] | [-> ->]]].
      * specialize (Hplain key m Hp). rewrite Hnone in Hplain.
        replace (String.eqb key "manage_security_groups") with false;
          [exact Hplain|].
        symmetry. apply String.eqb_neq. intros ->.
        unfold plain_accessors in Hp.
        repeat (apply elem_of_cons in Hp as [[= ] | Hp]).
        by apply elem_of_nil in Hp.
      * cbn [String.eqb]. unfold returns, endpoint_tls_ca.
        by rewrite (or_default_run w r rs Hrel), Hnone.
      * unfold returns, manage_security_groups.
        by rewrite (or_default_run w r rs Hrel), Hnone.
    + intros mth. apply (call_run w r rs mth Hrel).
Qed.

(** C3 (as stated) fails: with no relation [self.relations[0]] raises
    [IndexError], out of every accessor and out of [check_ready]. *)
Lemma unconnected_raises_counterexample :
  raises auth_url unconnected IndexError
  /\ raises manage_security_groups unconnected IndexError
  /\ raises is_ready unconnected IndexError
  /\ raises check_ready unconnected IndexError
  /\ ~ nothing_raises.
Proof.
  repeat split; try reflexivity.
  intros Hnothing. destruct (Hnothing unconnected) as [Hacc _].
  destruct (Hacc "auth_url" auth_url) as [v Hv].
  - unfold accessors, plain_accessors. repeat constructor.
  - discriminate Hv.
Qed.

(** ** The flags *)

Lemma flag_name_inj w f1 f2 : flag_name w f1 = flag_name w f2 -> f1 = f2.
Proof.
  unfold flag_name. intros H.
  by do 3 apply (inj (String.append _)) in H.
Qed.

Lemma is_flag_set_with_flags f fl w :
  is_flag_set f (with_flags fl w) = bool_decide (f ∈ fl).
Proof. reflexivity. Qed.

Lemma flag_cleared f (fl : gset string) : bool_decide (f ∈ fl ∖ {[f]}) = false.
Proof.
  apply bool_decide_eq_false.
  rewrite elem_of_difference, elem_of_singleton. tauto.
Qed.

Lemma flag_set f (fl : gset string) : bool_decide (f ∈ {[f]} ∪ fl) = true.
Proof.
  apply bool_decide_eq_true.
  rewrite elem_of_union, elem_of_singleton. tauto.
Qed.

Lemma flag_other_clear f g (fl : gset string) :
  f <> g -> bool_decide (f ∈ fl ∖ {[g]}) = bool_decide (f ∈ fl).
Proof.
  intros Hne. apply bool_decide_ext.
  rewrite elem_of_difference, elem_of_singleton. tauto.
Qed.

Lemma flag_other_set f g (fl : gset string) :
  f <> g -> bool_decide (f ∈ {[g]} ∪ fl) = bool_decide (f ∈ fl).
Proof.
  intros Hne. apply bool_decide_ext.
  rewrite elem_of_union, elem_of_singleton. tauto.
Qed.

Lemma flag_name_with_flags fl w f :
  flag_name (with_flags fl w) f = flag_name w f.
Proof. reflexivity. Qed.

Lemma flag_name_with_relations rs w f :
  flag_name (with_relations rs w) f = flag_name w f.
Proof. reflexivity. Qed.

Lemma after_set_flag f w :
  after (set_flag f) w = with_flags ({[f]} ∪ flags w) w.
Proof. reflexivity. Qed.

Lemma after_clear_flag f w :
  after (clear_flag f) w = with_flags (flags w ∖ {[f]}) w.
Proof. reflexivity. Qed.

Lemma after_remove_ready w :
  after remove_ready w = with_flags (flags w ∖ {[flag_name w "ready"]}) w.
Proof. reflexivity. Qed.

Lemma received_after w : after _received w = w.
Proof.
  unfold after, _received, bind, first_relation. by destruct (relations w).
Qed.

Lemma to_publish_after w : after _to_publish w = w.
Proof.
  unfold after, _to_publish, bind, first_relation. by destruct (relations w).
Qed.

Lemma reader_after mth w :
  mth <> m_check_ready -> mth <> m_remove_ready -> after (call mth) w = w.
Proof.
  intros Hc Hr.
  destruct mth; cbn [call]; try done; apply void_after;
    first [ apply received_item_after | apply or_default_after
          | apply is_ready_after | apply received_after
          | apply to_publish_after ].
Qed.

(** C5. On an endpoint with a relation, whatever the flags and the
    received data, [is_ready] returns a boolean [b] and [check_ready]
    leaves the [ready] flag set when [b] is [True] and cleared when it is
    [False], removes the [changed] flag and touches no other flag nor the
    relations; and no other method of the class takes the [ready] flag
    from cleared to set. *)
Theorem check_ready_toggles_ready
    (w : World) (r : Relation) (rs : list Relation) :
  relations w = r :: rs ->
  (exists b w',
     returns is_ready w (PyBool b)
     /\ check_ready w = (Ret tt, w')
     /\ is_flag_set (flag_name w "ready") w' = b
     /\ is_flag_set (flag_name w "changed") w' = false
     /\ (forall f, f <> flag_name w "ready" ->
                   f <> flag_name w "changed" ->
                   is_flag_set f w' = is_flag_set f w)
     /\ relations w' = relations w
     /\ endpoint_name w' = endpoint_name w)
  /\ (forall mth w0,
        is_flag_set (flag_name w0 "ready") w0 = false ->
        is_flag_set (flag_name w0 "ready") (after (call mth) w0) = true ->
        mth = m_check_ready).
Proof.
  intros Hrel. split.
  - exists (ready_value (received r)). eexists.
    split; [apply (is_ready_run w r rs Hrel)|].
    split; [apply (check_ready_run w r rs Hrel)|].
    rewrite !is_flag_set_with_flags.
    pose proof (flag_name_ready_changed w) as Hne.
    repeat split; try reflexivity.
    + rewrite flag_other_clear by done.
      destruct (ready_value (received r));
        [apply flag_set | apply flag_cleared].
    + apply flag_cleared.
    + intros f Hfr Hfc.
      rewrite is_flag_set_with_flags, flag_other_clear by done.
      destruct (ready_value (received r));
        [by apply flag_other_set | by apply flag_other_clear].
  - intros mth w0 Hclear Hset.
    destruct mth; try reflexivity; exfalso;
      try (rewrite (reader_after _ w0) in Hset by discriminate; congruence).
    cbn [call] in Hset. rewrite after_remove_ready in Hset.
    by rewrite is_flag_set_with_flags, flag_cleared in Hset.
Qed.

Lemma check_ready_toggles_ready_witness :
  exists w',
    check_ready (mkWorld {["endpoint.openstack.changed"]} "openstack"
                   [mkRelation scenario_A ∅]) = (Ret tt, w')
    /\ is_flag_set "endpoint.openstack.ready" w' = true
    /\ is_flag_set "endpoint.openstack.changed" w' = false.
Proof.
  destruct (check_ready_toggles_ready
              (mkWorld {["endpoint.openstack.changed"]} "openstack"
                 [mkRelation scenario_A ∅]) (mkRelation scenario_A ∅) []
              eq_refl)
    as [(b & w' & Hready & Hrun & Hset & Hchanged & _) _].
  assert (Hb : b = true).
  { unfold returns in Hready. vm_compute in Hready. by injection Hready. }
  rewrite Hb in Hset.
  exists w'. split; [exact Hrun|]. split; [exact Hset | exact Hchanged].
Defined.

(** ** The flag state machine *)

Lemma fire_endpoint_name ev w w1 :
  fire ev w = Some w1 -> endpoint_name w1 = endpoint_name w.
Proof.
  destruct ev; cbn [fire].
  - by intros [= <-].
  - destruct (relations w); [done|]. by intros [= <-].
  - by intros [= <-].
  - destruct (is_flag_set _ w); [|done]. intros [= <-].
    unfold after. destruct (relations w) as [|r rs] eqn:Hrel.
    + by rewrite (check_ready_raise w Hrel).
    + by rewrite (check_ready_run w r rs Hrel).
  - destruct (is_flag_set _ w); [done|]. by intros [= <-].
Qed.

Lemma fire_keeps_ready_clear ev w w1 :
  is_check_ready ev = false ->
  fire ev w = Some w1 ->
  is_flag_set (flag_name w "ready") w = false ->
  is_flag_set (flag_name w "ready") w1 = false.
Proof.
  intros Hev Hfire Hclear. unfold is_flag_set in Hclear.
  destruct ev; cbn [fire] in Hfire; try discriminate Hev.
  - injection Hfire as <-.
    rewrite after_set_flag, is_flag_set_with_flags.
    cbn [flags with_relations]. rewrite flag_other_set; [done|].
    intros H. by apply flag_name_inj in H.
  - destruct (relations w); [done|]. injection Hfire as <-.
    rewrite after_set_flag, is_flag_set_with_flags.
    cbn [flags with_relations]. rewrite flag_other_set; [done|].
    intros H. by apply flag_name_inj in H.
  - injection Hfire as <-.
    rewrite after_clear_flag, is_flag_set_with_flags.
    cbn [flags with_relations]. rewrite flag_other_clear; [done|].
    intros H. by apply flag_name_inj in H.
  - destruct (is_flag_set _ w); [done|]. injection Hfire as <-.
    rewrite after_remove_ready, is_flag_set_with_flags. apply flag_cleared.
Qed.

Lemma run_keeps_ready_clear evs w w1 :
  forallb (fun ev => negb (is_check_ready ev)) evs = true ->
  run evs w = Some w1 ->
  is_flag_set (flag_name w "ready") w = false ->
  is_flag_set (flag_name w1 "ready") w1 = false.
Proof.
  revert w. induction evs as [|ev evs IH]; intros w Hevs Hrun Hclear.
  - by injection Hrun as <-.
  - cbn [forallb] in Hevs. apply andb_true_iff in Hevs as [Hev Hevs].
    apply negb_true_iff in Hev. cbn [run] in Hrun.
    destruct (fire ev w) as [w0|] eqn:Hfire; [|done].
    apply (IH w0 Hevs Hrun).
    unfold flag_name. rewrite (fire_endpoint_name ev w w0 Hfire).
    by apply (fire_keeps_ready_clear ev w w0 Hev Hfire).
Qed.

(** C4 (as amended). In every state, whatever the flags and the received
    data, [remove_ready] returns with the [ready] flag cleared and nothing
    else changed; it is enabled whenever [joined] is not set, so after a
    teardown followed by the handler neither flag is set, and [ready]
    then stays cleared until [check_ready] next runs. *)
Theorem remove_ready_clears_ready (w : World) :
  (exists w',
     remove_ready w = (Ret tt, w')
     /\ is_flag_set (flag_name w "ready") w' = false
     /\ (forall f, f <> flag_name w "ready" ->
                   is_flag_set f w' = is_flag_set f w)
     /\ relations w' = relations w
     /\ endpoint_name w' = endpoint_name w)
  /\ (is_flag_set (flag_name w "joined") w = false ->
      fire DispatchRemoveReady w = Some (after remove_ready w))
  /\ (exists w1 w2,
        fire RelationBroken w = Some w1
        /\ fire DispatchRemoveReady w1 = Some w2
        /\ is_flag_set (flag_name w "ready") w2 = false
        /\ is_flag_set (flag_name w "joined") w2 = false)
  /\ (forall evs w',
        forallb (fun ev => negb (is_check_ready ev)) evs = true ->
        run (DispatchRemoveReady :: evs) w = Some w' ->
        is_flag_set (flag_name w' "ready") w' = false).
Proof.
  split; [|split; [|split]].
  - eexists. split; [apply remove_ready_run|].
    rewrite is_flag_set_with_flags. repeat split.
    + apply flag_cleared.
    + intros f Hne. rewrite is_flag_set_with_flags.
      by apply flag_other_clear.
  - intros Hj. cbn [fire]. by rewrite Hj.
  - do 2 eexists. split; [reflexivity|].
    cbn [fire]. rewrite after_clear_flag.
    rewrite flag_name_with_flags, flag_name_with_relations.
    rewrite is_flag_set_with_flags. cbn [flags with_relations].
    rewrite flag_cleared. split; [reflexivity|].
    rewrite after_remove_ready, !is_flag_set_with_flags.
    rewrite flag_name_with_flags, flag_name_with_relations.
    cbn [flags with_flags with_relations].
    split.
    + apply flag_cleared.
    + rewrite flag_other_clear; [apply flag_cleared|].
      intros H. by apply flag_name_inj in H.
  - intros evs w' Hevs Hrun. cbn [run] in Hrun.
    destruct (fire DispatchRemoveReady w) as [w0|] eqn:Hfire; [|done].
    apply (run_keeps_ready_clear evs w0 w' Hevs Hrun).
    cbn [fire] in Hfire. destruct (is_flag_set _ w); [done|].
    injection Hfire as <-.
    rewrite after_remove_ready, flag_name_with_flags.
    rewrite is_flag_set_with_flags. apply flag_cleared.
Qed.

Lemma remove_ready_clears_ready_witness :
  let w := mkWorld {["endpoint.openstack.ready"]} "openstack" [] in
  fire DispatchRemoveReady w = Some (after remove_ready w)
  /\ is_flag_set "endpoint.openstack.ready" (after remove_ready w) = false.
Proof.
  intros w.
  destruct (remove_ready_clears_ready w) as (_ & Henabled & _ & Hstays).
  split.
  - apply Henabled. vm_compute. reflexivity.
  - apply (Hstays [] (after remove_ready w)); reflexivity.
Defined.

(** C4 (as stated) fails: the framework removes [joined] when the relation
    is torn down and [ready] is removed by the handler, which runs
    afterwards; in between [ready] is set and [joined] is not. *)
Lemma ready_without_joined_counterexample :
  run [RelationJoined (mkRelation ∅ ∅); RelationChanged scenario_A;
       DispatchCheckReady; RelationBroken] (initial "openstack")
  = Some (mkWorld {["endpoint.openstack.ready"]} "openstack" [])
  /\ ~ ready_only_while_joined.
Proof.
  assert (Hrun : run [RelationJoined (mkRelation ∅ ∅);
                      RelationChanged scenario_A;
                      DispatchCheckReady; RelationBroken]
                   (initial "openstack")
                 = Some (mkWorld {["endpoint.openstack.ready"]}
                           "openstack" []))
    by (vm_compute; reflexivity).
  split; [exact Hrun|].
  intros Hclaim.
  specialize (Hclaim (mkWorld {["endpoint.openstack.ready"]} "openstack" [])).
  assert (Hjoined : is_flag_set "endpoint.openstack.joined"
                      (mkWorld {["endpoint.openstack.ready"]} "openstack" [])
                    = true).
  { apply Hclaim; [|vm_compute; reflexivity].
    exists "openstack". eexists. exact Hrun. }
  vm_compute in Hjoined. discriminate Hjoined.
Qed.

(** Scenario E: the relation of scenario A, ready, is torn down and the
    handler runs: neither flag is left. *)
Example scenario_E_disconnected :
  run [RelationJoined (mkRelation ∅ ∅); RelationChanged scenario_A;
       DispatchCheckReady; RelationBroken; DispatchRemoveReady]
    (initial "openstack")
  = Some (initial "openstack").
Proof. vm_compute. reflexivity. Qed.

(** * Further properties of the class *)

(** ** Helpers *)

Lemma void_raise {A} (m : M A) w e w' :
  m w = (Raise e, w') -> void m w = (Raise e, w').
Proof. intros H. unfold void. by rewrite (bind_raise _ _ _ _ _ H). Qed.

Lemma to_publish_raise w :
  relations w = [] -> _to_publish w = (Raise IndexError, w).
Proof.
  intros Hnone. unfold _to_publish, bind, first_relation. by rewrite Hnone.
Qed.

Lemma call_raise w mth :
  relations w = [] ->
  mth <> m_remove_ready ->
  call mth w = (Raise IndexError, w).
Proof.
  intros Hnone Hne.
  destruct mth; cbn [call]; try done;
    try (apply void_raise;
         first [ apply (received_item_raise w Hnone)
               | apply (or_default_raise w Hnone)
               | apply (is_ready_raise w Hnone)
               | apply (received_raise w Hnone)
               | apply (to_publish_raise w Hnone) ]).
  apply (check_ready_raise w Hnone).
Qed.

Lemma after_check_ready_run w r rs :
  relations w = r :: rs ->
  after check_ready w
  = with_flags
      ((if ready_value (received r)
        then {[flag_name w "ready"]} ∪ flags w
        else flags w ∖ {[flag_name w "ready"]})
       ∖ {[flag_name w "changed"]}) w.
Proof. intros Hrel. unfold after. by rewrite (check_ready_run w r rs Hrel). Qed.

Lemma after_check_ready_raise w :
  relations w = [] -> after check_ready w = w.
Proof. intros Hnone. unfold after. by rewrite (check_ready_raise w Hnone). Qed.

Lemma with_flags_twice fl1 fl2 w :
  with_flags fl1 (with_flags fl2 w) = with_flags fl1 w.
Proof. reflexivity. Qed.

Lemma with_flags_eq fl1 fl2 w :
  (forall f : string, f ∈ fl1 <-> f ∈ fl2) -> with_flags fl1 w = with_flags fl2 w.
Proof. intros Heq. unfold with_flags. f_equal. by apply set_eq. Qed.

Lemma head_relations_cases w1 w2 :
  head (relations w1) = head (relations w2) ->
  (relations w1 = [] /\ relations w2 = [])
  \/ exists r rs1 rs2, relations w1 = r :: rs1 /\ relations w2 = r :: rs2.
Proof.
  destruct (relations w1) as [|r1 rs1], (relations w2) as [|r2 rs2];
    cbn; intros Hhd; try discriminate Hhd.
  - by left.
  - injection Hhd as ->. right. by exists r2, rs1, rs2.
Qed.

(** ** Only the first relation is read *)

(** X1. Every field accessor, [is_ready], [_received] and [_to_publish]
    read the first relation only: two endpoints with the same first
    relation, or both with none, give the same outcome, whatever their
    further relations, their flags and their names. *)
Theorem only_first_relation_is_read (w1 w2 : World) :
  head (relations w1) = head (relations w2) ->
  (forall key m, (key, m) ∈ accessors -> fst (m w1) = fst (m w2))
  /\ fst (is_ready w1) = fst (is_ready w2)
  /\ fst (_received w1) = fst (_received w2)
  /\ fst (_to_publish w1) = fst (_to_publish w2).
Proof.
  intros Hhd.
  destruct (head_relations_cases w1 w2 Hhd)
    as [[Hn1 Hn2] | (r & rs1 & rs2 & Hr1 & Hr2)].
  - repeat split.
    + intros key m Hin.
      destruct (accessors_cases key m Hin) as [Hp | [[-> ->] | [-> ->]]].
      * rewrite (plain_accessor_unfold key m Hp).
        by rewrite (received_item_raise w1 Hn1), (received_item_raise w2 Hn2).
      * unfold endpoint_tls_ca.
        by rewrite (or_default_raise w1 Hn1), (or_default_raise w2 Hn2).
      * unfold manage_security_groups.
        by rewrite (or_default_raise w1 Hn1), (or_default_raise w2 Hn2).
    + by rewrite (is_ready_raise w1 Hn1), (is_ready_raise w2 Hn2).
    + by rewrite (received_raise w1 Hn1), (received_raise w2 Hn2).
    + by rewrite (to_publish_raise w1 Hn1), (to_publish_raise w2 Hn2).
  - repeat split.
    + intros key m Hin.
      destruct (accessors_cases key m Hin) as [Hp | [[-> ->] | [-> ->]]].
      * rewrite (plain_accessor_unfold key m Hp).
        by rewrite (received_item_run w1 r rs1 Hr1),
          (received_item_run w2 r rs2 Hr2).
      * unfold endpoint_tls_ca.
        by rewrite (or_default_run w1 r rs1 Hr1), (or_default_run w2 r rs2 Hr2).
      * unfold manage_security_groups.
        by rewrite (or_default_run w1 r rs1 Hr1), (or_default_run w2 r rs2 Hr2).
    + by rewrite (is_ready_run w1 r rs1 Hr1), (is_ready_run w2 r rs2 Hr2).
    + by rewrite (received_run w1 r rs1 Hr1), (received_run w2 r rs2 Hr2).
    + by rewrite (to_publish_run w1 r rs1 Hr1), (to_publish_run w2 r rs2 Hr2).
Qed.

Lemma only_first_relation_is_read_witness :
  fst (is_ready (mkWorld {["endpoint.other.joined"]} "other"
                   [mkRelation scenario_C ∅; mkRelation scenario_D ∅;
                    mkRelation ∅ scenario_A]))
  = fst (is_ready (connected scenario_C)).
Proof.
  destruct (only_first_relation_is_read
              (mkWorld {["endpoint.other.joined"]} "other"
                 [mkRelation scenario_C ∅; mkRelation scenario_D ∅;
                  mkRelation ∅ scenario_A])
              (connected scenario_C) eq_refl) as (_ & Hready & _).
  exact Hready.
Defined.

(** ** When a method raises *)

(** X2. A method of the class raises exactly when the endpoint has no
    relation and the method is not [remove_ready]; this holds for
    [_received] and [_to_publish] as for the accessors. What is raised is
    the [IndexError] of [self.relations[0]], and the flags, [changed]
    among them, are left as they were. *)
Theorem raises_iff_no_relation (mth : method) (w : World) :
  ((exists e, fst (call mth w) = Raise e)
   <-> relations w = [] /\ mth <> m_remove_ready)
  /\ (forall e, fst (call mth w) = Raise e ->
                call mth w = (Raise IndexError, w)).
Proof.
  destruct (relations w) as [|r rs] eqn:Hrel.
  - destruct (method_eq_dec mth m_remove_ready) as [-> | Hne].
    + split.
      * split; [|by intros [_ Hne]].
        intros [e He]. cbn [call] in He. by rewrite remove_ready_run in He.
      * intros e He. cbn [call] in He. by rewrite remove_ready_run in He.
    + rewrite (call_raise w mth Hrel Hne). split; [|done].
      split; [done|]. intros _. by exists IndexError.
  - destruct (call_run w r rs mth Hrel) as [w' Hrun]. rewrite Hrun.
    split.
    + split; [by intros [e He] | by intros [Hnil _]].
    + by intros e He.
Qed.

(** ** What no method touches *)

(** X3. No method of the class changes the relations or the name of the
    endpoint, nor any flag other than its own [ready] and [changed]: the
    [joined] flag is neither set nor removed, and [changed] is never
    set. *)
Theorem methods_frame (mth : method) (w : World) :
  relations (after (call mth) w) = relations w
  /\ endpoint_name (after (call mth) w) = endpoint_name w
  /\ (forall f, f <> flag_name w "ready" ->
                f <> flag_name w "changed" ->
                is_flag_set f (after (call mth) w) = is_flag_set f w)
  /\ is_flag_set (flag_name w "joined") (after (call mth) w)
     = is_flag_set (flag_name w "joined") w
  /\ (is_flag_set (flag_name w "changed") w = false ->
      is_flag_set (flag_name w "changed") (after (call mth) w) = false).
Proof.
  assert (Hjr : flag_name w "joined" <> flag_name w "ready")
    by (intros H; by apply flag_name_inj in H).
  assert (Hjc : flag_name w "joined" <> flag_name w "changed")
    by (intros H; by apply flag_name_inj in H).
  assert (Hcr : flag_name w "changed" <> flag_name w "ready")
    by (intros H; by apply flag_name_inj in H).
  destruct (method_eq_dec mth m_check_ready) as [-> | Hc];
    [|destruct (method_eq_dec mth m_remove_ready) as [-> | Hr]].
  - cbn [call]. destruct (relations w) as [|r rs] eqn:Hrel.
    + rewrite (after_check_ready_raise w Hrel). by rewrite Hrel.
    + rewrite (after_check_ready_run w r rs Hrel).
      rewrite !is_flag_set_with_flags. repeat split; try done.
      * intros f Hfr Hfc.
        rewrite is_flag_set_with_flags, flag_other_clear by done.
        destruct (ready_value (received r));
          [by apply flag_other_set | by apply flag_other_clear].
      * rewrite flag_other_clear by done.
        destruct (ready_value (received r));
          [by apply flag_other_set | by apply flag_other_clear].
      * intros _. apply flag_cleared.
  - cbn [call]. rewrite after_remove_ready, !is_flag_set_with_flags.
    repeat split; try done.
    + intros f Hfr Hfc. rewrite is_flag_set_with_flags.
      by apply flag_other_clear.
    + by apply flag_other_clear.
    + intros Hclear. by rewrite flag_other_clear.
  - by rewrite (reader_after mth w Hc Hr).
Qed.

(** ** The handlers composed *)

(** X4. [check_ready] is level-triggered: on an endpoint with a relation
    the flags it leaves do not depend on whether [ready] and [changed]
    were set before, only on the received data and on the other flags.
    Run twice in a row, with or without a relation, it leaves what one run
    leaves. *)
Theorem check_ready_level_triggered (w : World) :
  after check_ready (after check_ready w) = after check_ready w
  /\ forall r rs (fl : gset string),
       relations w = r :: rs ->
       (forall f, f <> flag_name w "ready" ->
                  f <> flag_name w "changed" ->
                  (f ∈ fl <-> f ∈ flags w)) ->
       after check_ready (with_flags fl w) = after check_ready w.
Proof.
  assert (Hlevel : forall r rs (fl : gset string),
             relations w = r :: rs ->
             (forall f, f <> flag_name w "ready" ->
                        f <> flag_name w "changed" ->
                        (f ∈ fl <-> f ∈ flags w)) ->
             after check_ready (with_flags fl w) = after check_ready w).
  { intros r rs fl Hrel Hsame.
    rewrite (after_check_ready_run w r rs Hrel).
    rewrite (after_check_ready_run (with_flags fl w) r rs Hrel).
    rewrite !flag_name_with_flags, with_flags_twice.
    cbn [flags with_flags].
    apply with_flags_eq. intros f.
    destruct (decide (f = flag_name w "changed")) as [-> | Hfc].
    { rewrite !elem_of_difference, !elem_of_singleton. tauto. }
    destruct (decide (f = flag_name w "ready")) as [-> | Hfr].
    { destruct (ready_value (received r));
        rewrite !elem_of_difference, ?elem_of_union, !elem_of_singleton;
        tauto. }
    specialize (Hsame f Hfr Hfc).
    destruct (ready_value (received r));
      rewrite !elem_of_difference, ?elem_of_union, !elem_of_singleton;
      tauto. }
  split; [|exact Hlevel].
  destruct (relations w) as [|r rs] eqn:Hrel.
  - by rewrite !(after_check_ready_raise w Hrel).
  - rewrite (after_check_ready_run w r rs Hrel) at 1.
    apply (Hlevel r rs _ eq_refl).
    intros f Hfr Hfc.
    destruct (ready_value (received r));
      rewrite !elem_of_difference, ?elem_of_union, !elem_of_singleton;
      tauto.
Qed.

Lemma check_ready_level_triggered_witness :
  after check_ready
    (mkWorld {["endpoint.openstack.ready"; "endpoint.openstack.joined"]}
       "openstack" [mkRelation scenario_B ∅])
  = after check_ready
      (mkWorld {["endpoint.openstack.changed"; "endpoint.openstack.joined"]}
         "openstack" [mkRelation scenario_B ∅]).
Proof.
  destruct (check_ready_level_triggered
              (mkWorld {["endpoint.openstack.changed";
                         "endpoint.openstack.joined"]}
                 "openstack" [mkRelation scenario_B ∅])) as [_ Hlevel].
  apply (Hlevel (mkRelation scenario_B ∅) []
           {["endpoint.openstack.ready"; "endpoint.openstack.joined"]}
           eq_refl).
  intros f Hfr Hfc. cbn [flags].
  change (flag_name _ "ready") with "endpoint.openstack.ready" in Hfr.
  change (flag_name _ "changed") with "endpoint.openstack.changed" in Hfc.
  rewrite !elem_of_union, !elem_of_singleton. tauto.
Defined.

Lemma handlers_commute_when (w : World) :
  after remove_ready (after check_ready w)
  = after check_ready (after remove_ready w)
  <-> ~ returns is_ready w (PyBool true).
Proof.
  unfold returns. destruct (relations w) as [|r rs] eqn:Hrel.
  - rewrite (is_ready_raise w Hrel), (after_check_ready_raise w Hrel).
    rewrite (after_check_ready_raise (after remove_ready w)) by exact Hrel.
    split; [discriminate | done].
  - rewrite (is_ready_run w r rs Hrel), (after_check_ready_run w r rs Hrel).
    rewrite (after_check_ready_run (after remove_ready w) r rs) by exact Hrel.
    rewrite !after_remove_ready, !flag_name_with_flags, !with_flags_twice.
    cbn [flags with_flags].
    pose proof (flag_name_ready_changed w) as Hne.
    destruct (ready_value (received r)); split.
    + intros Heq Hret. apply (f_equal flags) in Heq. cbn [flags with_flags] in Heq.
      assert (Hin : flag_name w "ready"
                      ∈ ({[flag_name w "ready"]}
                           ∪ flags w ∖ {[flag_name w "ready"]})
                          ∖ {[flag_name w "changed"]}).
      { rewrite elem_of_difference, elem_of_union, !elem_of_singleton.
        tauto. }
      rewrite <- Heq in Hin.
      rewrite !elem_of_difference, !elem_of_singleton in Hin. tauto.
    + intros Hnot. by destruct Hnot.
    + discriminate.
    + intros _. apply with_flags_eq. intros f.
      rewrite !elem_of_difference, !elem_of_singleton. tauto.
Qed.

Lemma handlers_order_on_complete_data (w : World) :
  returns is_ready w (PyBool true) ->
  is_flag_set (flag_name w "ready") (after remove_ready (after check_ready w))
  = false
  /\ is_flag_set (flag_name w "ready")
       (after check_ready (after remove_ready w))
     = true.
Proof.
  unfold returns. intros Hready.
  destruct (relations w) as [|r rs] eqn:Hrel;
    [by rewrite (is_ready_raise w Hrel) in Hready|].
  rewrite (is_ready_run w r rs Hrel) in Hready.
  injection Hready as Hv.
  rewrite (after_check_ready_run w r rs Hrel).
  rewrite (after_check_ready_run (after remove_ready w) r rs) by exact Hrel.
  rewrite Hv, !after_remove_ready, !flag_name_with_flags, !with_flags_twice.
  rewrite !is_flag_set_with_flags. cbn [flags with_flags].
  split; [apply flag_cleared|].
  rewrite flag_other_clear by apply flag_name_ready_changed.
  apply flag_set.
Qed.

(** X5. The two handlers commute exactly when [is_ready] does not return
    [True]: on complete data [remove_ready] after [check_ready] leaves
    [ready] cleared, while [check_ready] after [remove_ready] leaves it
    set, so the order of dispatch decides the flag. *)
Theorem handlers_commute_iff (w : World) :
  (after remove_ready (after check_ready w)
   = after check_ready (after remove_ready w)
   <-> ~ returns is_ready w (PyBool true))
  /\ (returns is_ready w (PyBool true) ->
      is_flag_set (flag_name w "ready")
        (after remove_ready (after check_ready w)) = false
      /\ is_flag_set (flag_name w "ready")
           (after check_ready (after remove_ready w)) = true).
Proof.
  split.
  - apply handlers_commute_when.
  - apply handlers_order_on_complete_data.
Qed.

Lemma handlers_commute_iff_witness :
  after remove_ready (after check_ready (connected scenario_B))
  = after check_ready (after remove_ready (connected scenario_B))
  /\ is_flag_set "endpoint.openstack.ready"
       (after remove_ready (after check_ready (connected scenario_A)))
     = false
  /\ is_flag_set "endpoint.openstack.ready"
       (after check_ready (after remove_ready (connected scenario_A)))
     = true.
Proof.
  split.
  - apply (handlers_commute_iff (connected scenario_B)).
    unfold returns. vm_compute. discriminate.
  - apply (handlers_commute_iff (connected scenario_A)).
    vm_compute. reflexivity.
Defined.

(** ** The security group test *)

(** X6. A true [node_security_group] settles the security test by
    itself: readiness is then the same for any two field sets that differ
    on [manage_security_groups] only, and [is_ready] returns whether the
    six required fields are all there. *)
Theorem true_group_id_settles_security
    (w : World) (r : Relation) (rs : list Relation) :
  relations w = r :: rs ->
  truthy (getitem (received r) "node_security_group") = true ->
  (forall w' r' rs',
     relations w' = r' :: rs' ->
     (forall key, key <> "manage_security_groups" ->
                  received r' !! key = received r !! key) ->
     fst (is_ready w') = fst (is_ready w))
  /\ returns is_ready w
       (PyBool (forallb is_not_None
                  (map (getitem (received r)) required_fields))).
Proof.
  intros Hrel Hn. split.
  - intros w' r' rs' Hrel' Hagree.
    rewrite (is_ready_run w r rs Hrel), (is_ready_run w' r' rs' Hrel').
    cbn [fst]. f_equal. f_equal. unfold ready_value.
    assert (Hget : forall key, key <> "manage_security_groups" ->
                     getitem (received r') key = getitem (received r) key)
      by (intros key Hne; by apply getitem_agree, Hagree).
    rewrite (Hget "node_security_group"), (Hget "auth_url"),
      (Hget "username"), (Hget "password"), (Hget "user_domain_name"),
      (Hget "project_domain_name"), (Hget "project_name") by done.
    by rewrite Hn.
  - unfold returns. rewrite (is_ready_run w r rs Hrel).
    unfold ready_value. by rewrite Hn.
Qed.

Lemma true_group_id_settles_security_witness :
  fst (is_ready (connected (<["manage_security_groups" := PyInt 0]>
                              scenario_C)))
  = fst (is_ready (connected scenario_C))
  /\ returns is_ready (connected scenario_C) (PyBool true).
Proof.
  destruct (true_group_id_settles_security
              (connected scenario_C) (mkRelation scenario_C ∅) []
              eq_refl eq_refl) as [Hind Hready].
  split; [|exact Hready].
  apply (Hind (connected (<["manage_security_groups" := PyInt 0]>
                            scenario_C)) (mkRelation _ ∅) [] eq_refl).
  intros key Hne. cbn [received]. by rewrite lookup_insert_ne.
Defined.

(** ** The accessors with a default *)

Lemma truthy_or_default v d :
  truthy d = false -> truthy (if truthy v then v else d) = truthy v.
Proof. intros Hd. by destruct (truthy v) eqn:Hv. Qed.

(** X7. The two accessors with a default keep the truth of what was
    received: [endpoint_tls_ca] returns [None] or a true value and
    [manage_security_groups] returns [False] or a true value, each true
    exactly when the received value is. On either of them a test against
    the default and a truth test agree. *)
Theorem defaulting_accessors_keep_truth
    (w : World) (r : Relation) (rs : list Relation) :
  relations w = r :: rs ->
  exists ca msg,
    returns endpoint_tls_ca w ca
    /\ returns manage_security_groups w msg
    /\ truthy ca = truthy (getitem (received r) "endpoint_tls_ca")
    /\ truthy msg = truthy (getitem (received r) "manage_security_groups")
    /\ (ca = PyNone <-> truthy ca = false)
    /\ (msg = PyBool false <-> truthy msg = false).
Proof.
  intros Hrel. do 2 eexists.
  split; [apply (or_default_run w r rs Hrel)|].
  split; [apply (or_default_run w r rs Hrel)|].
  split; [by apply truthy_or_default|].
  split; [by apply truthy_or_default|].
  split.
  - destruct (truthy (getitem (received r) "endpoint_tls_ca")) eqn:Ht.
    + rewrite Ht. split; [|done]. intros Heq. by rewrite Heq in Ht.
    + done.
  - destruct (truthy (getitem (received r) "manage_security_groups")) eqn:Ht.
    + rewrite Ht. split; [|done]. intros Heq. by rewrite Heq in Ht.
    + done.
Qed.

Lemma defaulting_accessors_keep_truth_witness :
  exists ca msg,
    returns endpoint_tls_ca
      (connected (<["endpoint_tls_ca" := PyList []]> scenario_B)) ca
    /\ returns manage_security_groups
         (connected (<["endpoint_tls_ca" := PyList []]> scenario_B)) msg
    /\ truthy ca = false /\ truthy msg = true.
Proof.
  destruct (defaulting_accessors_keep_truth
              (connected (<["endpoint_tls_ca" := PyList []]> scenario_B))
              (mkRelation _ ∅) [] eq_refl)
    as (ca & msg & Hca & Hmsg & Htca & Htmsg & _).
  exists ca, msg. split; [exact Hca|]. split; [exact Hmsg|].
  split; [exact Htca | exact Htmsg].
Defined.

(** ** What the ready flag promises *)

(** X8. When [check_ready] leaves the [ready] flag set, the accessors of
    the six required fields, read in the state it leaves, all return
    values other than [None], and [node_security_group] is a true value
    whenever [manage_security_groups] is. *)
Theorem ready_flag_guarantees_fields
    (w : World) (r : Relation) (rs : list Relation) :
  relations w = r :: rs ->
  is_flag_set (flag_name w "ready") (after check_ready w) = true ->
  (forall key m,
     (key, m) ∈ plain_accessors ->
     key ∈ required_fields ->
     exists v, returns m (after check_ready w) v /\ v <> PyNone)
  /\ exists nsg msg,
       returns node_security_group (after check_ready w) nsg
       /\ returns manage_security_groups (after check_ready w) msg
       /\ (truthy msg = true -> truthy nsg = true).
Proof.
  intros Hrel Hset.
  rewrite (after_check_ready_run w r rs Hrel) in *.
  set (fl := (_ ∖ _ : gset string)) in *.
  assert (Hrel' : relations (with_flags fl w) = r :: rs) by exact Hrel.
  assert (Hready : ready_value (received r) = true).
  { destruct (ready_value (received r)) eqn:Hv; [done|].
    subst fl. rewrite is_flag_set_with_flags in Hset.
    apply bool_decide_eq_true in Hset.
    rewrite !elem_of_difference, !elem_of_singleton in Hset. tauto. }
  apply ready_value_true_iff in Hready
    as (Hsec & Ha & Hu & Hp & Hud & Hpd & Hpn).
  split.
  - intros key m Hin Hreq. rewrite (plain_accessor_unfold key m Hin).
    exists (getitem (received r) key).
    split; [apply (received_item_run _ r rs Hrel')|].
    unfold required_fields in Hreq.
    repeat (apply elem_of_cons in Hreq as [-> | Hreq]; [done|]).
    by apply elem_of_nil in Hreq.
  - do 2 eexists.
    split; [apply (received_item_run _ r rs Hrel')|].
    split; [apply (or_default_run _ r rs Hrel')|].
    rewrite truthy_or_default by done.
    intros Hm. destruct Hsec as [Hn | Hnm]; [done | congruence].
Qed.

Lemma ready_flag_guarantees_fields_witness :
  exists v,
    returns password (after check_ready (connected scenario_C)) v
    /\ v <> PyNone.
Proof.
  destruct (ready_flag_guarantees_fields
              (connected scenario_C) (mkRelation scenario_C ∅) []
              eq_refl) as [Hfields _].
  - vm_compute. reflexivity.
  - apply (Hfields "password" password).
    + unfold plain_accessors. repeat constructor.
    + unfold required_fields. repeat constructor.
Defined.
